(** * publicsuffix.stefan-dev.de: the [/publicsuffix] endpoint and the
      suffix classifier behind it

    The repository is one Go file, [main.go].  Its only non-trivial handler,
    [publicSuffixHttpHandler], reads the [domain] query parameter, rejects the
    empty string, and otherwise answers with the JSON encoding of
    [publicSuffixHttpResponse(domain)], which calls the imported function
    [publicsuffix.PublicSuffix] (package [golang.org/x/net/publicsuffix]).

    The development has two parts.

    - [Module Http] embeds the handler of [main.go].  The imported lookup is a
      section variable of the type the call site fixes,
      [string -> string * bool]; the [http.ResponseWriter] is an explicit
      state, and every call of the lookup is recorded in that state.
    - [Module Main] embeds [getEnv] and the set-up done in [main]: the port
      read from the environment and the routes registered on the mux.
    - [Module Classifier] models the classification core, whose code is not
      part of the repository, from sections 3 and 4 of the specification.
    - [Module Wire] gives the strings a reader of the JSON answer gets: the
      encoder coerces a Go string to valid UTF-8.

    Of [main.go], [indexHttpHandler] (clock and template), [faviconHttpHandler]
    and the static file server (embedded files) and the body of
    [redirectHttpHandler] (one call of [http.Redirect]) are not embedded. *)

From Stdlib Require Import String Ascii List ZArith Bool Lia.
From stdpp Require Import base strings gmap.
Import ListNotations.

Local Open Scope string_scope.

(** ** Go library functions used by [main.go] *)

Module Go.
Local Open Scope Z_scope.

(** [strings.IndexByte(s, c)]: the index of the first [c] in [s], or [-1]. *)
Fixpoint IndexByte (s : string) (c : ascii) : Z :=
  match s with
  | EmptyString => -1
  | String a s' =>
      if Ascii.eqb a c then 0
      else let i := IndexByte s' c in
           if i <? 0 then -1 else i + 1
  end.

(** [url.Values] is [map[string][]string]; [Get] returns the first value
    stored under the key, and the empty string when there is none. *)
Definition Get (v : gmap string (list string)) (key : string) : string :=
  match v !! key with
  | Some (x :: _) => x
  | _ => ""
  end.

(** [net/http] status codes and [http.StatusText] at the codes in use. *)
Definition StatusOK : Z := 200.
Definition StatusBadRequest : Z := 400.
Definition StatusNotFound : Z := 404.

Definition StatusText (code : Z) : string :=
  if code =? 200 then "OK"
  else if code =? 400 then "Bad Request"
  else if code =? 404 then "Not Found"
  else "".

(** The values [encoding/json] is asked to encode here: objects whose
    members are strings and integers.  An object is the list of its members,
    in the order of the struct's fields and under the names of the [json:]
    tags. *)
Inductive JsonValue : Type :=
| JString (s : string)
| JNumber (n : Z).

Definition Json : Type := list (string * JsonValue).

(** The value of the member [name] of an object, and the names of its
    members. *)
Definition member (j : Json) (name : string) : option JsonValue :=
  match find (fun p => String.eqb (fst p) name) j with
  | Some p => Some (snd p)
  | None => None
  end.

Definition memberNames (j : Json) : list string := map fst j.

(** The byte [c] occurs in [s]. *)
Definition containsByte (s : string) (c : ascii) : Prop :=
  In c (list_ascii_of_string s).

(** What has been written to the response body. *)
Inductive Chunk : Type :=
| JsonLine (j : Json)
| TextLine (s : string).

(** The [http.ResponseWriter]: the header map (as the list of added
    entries), the status line ([None] until it is written) and the body. *)
Record ResponseWriter : Type := mkResponseWriter {
  header : list (string * string);
  status : option Z;
  body : list Chunk
}.

(** The state a handler runs in: the response writer, and the arguments of
    the calls made to [publicsuffix.PublicSuffix] so far. *)
Record World : Type := mkWorld {
  writer : ResponseWriter;
  lookups : list string
}.

Definition M (A : Type) : Type := World -> A * World.

Definition ret {A} (a : A) : M A := fun w => (a, w).

Definition bind {A B} (m : M A) (k : A -> M B) : M B :=
  fun w => let (a, w') := m w in k a w'.

Definition onWriter (f : ResponseWriter -> ResponseWriter) : M unit :=
  fun w => (tt, mkWorld (f (writer w)) (lookups w)).

(** [w.Header().Add(key, value)] *)
Definition HeaderAdd (key value : string) : M unit :=
  onWriter (fun rw => mkResponseWriter (header rw ++ [(key, value)]) (status rw) (body rw)).

(** [w.WriteHeader(code)]: the first call fixes the status, later calls are
    ignored. *)
Definition writeHeader (code : Z) (rw : ResponseWriter) : ResponseWriter :=
  match status rw with
  | Some _ => rw
  | None => mkResponseWriter (header rw) (Some code) (body rw)
  end.

Definition WriteHeader (code : Z) : M unit := onWriter (writeHeader code).

(** A write to the body: if [WriteHeader] has not been called, the first
    write sends [200 OK]. *)
Definition write (c : Chunk) (rw : ResponseWriter) : ResponseWriter :=
  let rw' := writeHeader StatusOK rw in
  mkResponseWriter (header rw') (status rw') (body rw' ++ [c]).

(** [json.NewEncoder(w).Encode(v)] *)
Definition Encode (j : Json) : M unit := onWriter (write (JsonLine j)).

(** [http.NotFound(w, r)]: status 404 and the plain-text line
    ["404 page not found"] (the headers [http.Error] sets are not tracked). *)
Definition NotFound : M unit :=
  onWriter (fun rw => write (TextLine "404 page not found") (writeHeader StatusNotFound rw)).

Definition emptyWriter : ResponseWriter := mkResponseWriter [] None [].
Definition emptyWorld : World := mkWorld emptyWriter [].

End Go.

Declare Scope go_scope.
Delimit Scope go_scope with go.
Notation "x <- m ;; k" := (Go.bind m (fun x => k))
  (at level 100, m at next level, right associativity) : go_scope.
Notation "m ;;; k" := (Go.bind m (fun _ => k))
  (at level 100, right associativity) : go_scope.

(** ** [main.go]: the [/publicsuffix] handler *)

Module Http.
Import Go.
Local Open Scope Z_scope.

(** The part of [*http.Request] the handler reads: [URL.Path] and
    [URL.Query()]. *)
Record Request : Type := mkRequest {
  Path : string;
  Query : gmap string (list string)
}.

(** [type PublicSuffixHttpResponse struct] (main.go:58-62) *)
Record PublicSuffixHttpResponse : Type := mkPublicSuffixHttpResponse {
  Domain : string;
  PublicSuffix : string;
  IsManagedBy : string
}.

(** The struct's JSON encoding: one member per field, named by its tag. *)
Definition responseJson (r : PublicSuffixHttpResponse) : Json :=
  [("domain", JString (Domain r));
   ("publicSuffix", JString (PublicSuffix r));
   ("isManagedBy", JString (IsManagedBy r))].

(** The anonymous error struct of main.go:92-100. *)
Definition errorJson : Json :=
  [("errorCode", JNumber StatusBadRequest);
   ("errorType", JString (StatusText StatusBadRequest));
   ("errorMessage", JString "Malformed URL query parameter `domain`")].

(** The branches of main.go:67-76 as a function of the two results of the
    lookup; [publicSuffixHttpResponse] below has them inline. *)
Definition isManagedByOf (publicSuffix : string) (isIcannManaged : bool) : string :=
  if isIcannManaged then "ICANN"
  else if IndexByte publicSuffix "." >=? 0 then "PRIVATE_ENTITY"
  else "NONE".

Section Handler.

(** [publicsuffix.PublicSuffix], imported from [golang.org/x/net]: a
    function of one string with two results, a string and a bool. *)
Variable lookup : string -> string * bool.

(** The call [publicsuffix.PublicSuffix(domain)], recorded in the state. *)
Definition callPublicSuffix (domain : string) : M (string * bool) :=
  fun w => (lookup domain, mkWorld (writer w) (lookups w ++ [domain])).

(** main.go:64-83 *)
Definition publicSuffixHttpResponse (domain : string) : M PublicSuffixHttpResponse :=
  (r <- callPublicSuffix domain ;;
   let (publicSuffix, isIcannManaged) := (r : string * bool) in
   let isManagedBy :=
     if isIcannManaged then "ICANN"
     else if IndexByte publicSuffix "." >=? 0 then "PRIVATE_ENTITY"
     else "NONE" in
   ret {| Domain := domain;
          PublicSuffix := publicSuffix;
          IsManagedBy := isManagedBy |})%go.

(** main.go:52-106 *)
Definition publicSuffixHttpHandler (httpRequest : Request) : M unit :=
  (if negb (String.eqb (Path httpRequest) "/publicsuffix") then NotFound
   else
     let domain := Get (Query httpRequest) "domain" in
     HeaderAdd "Content-Type" "application/json; charset=utf-8" ;;;
     if String.eqb domain "" then
       WriteHeader StatusBadRequest ;;;
       Encode errorJson
     else
       r <- publicSuffixHttpResponse domain ;;
       Encode (responseJson r))%go.

(** Serving one request with a fresh response writer. *)
Definition serve (httpRequest : Request) : World :=
  snd (publicSuffixHttpHandler httpRequest emptyWorld).

(** The struct [publicSuffixHttpResponse(domain)] returns. *)
Definition responseOf (domain : string) : PublicSuffixHttpResponse :=
  fst (publicSuffixHttpResponse domain emptyWorld).

End Handler.

(** The response carries a status of the 400 class. *)
Definition isClientError (w : World) : bool :=
  match status (writer w) with
  | Some code => (400 <=? code) && (code <? 500)
  | None => false
  end.

(** The world the handler leaves after the error answer, and after the
    answer for a non-empty [domain]. *)
Definition jsonHeader : list (string * string) :=
  [("Content-Type", "application/json; charset=utf-8")].

Definition rejectedWorld : World :=
  mkWorld (mkResponseWriter jsonHeader (Some StatusBadRequest) [JsonLine errorJson]) [].

Definition answeredWorld (r : PublicSuffixHttpResponse) : World :=
  mkWorld (mkResponseWriter jsonHeader (Some StatusOK) [JsonLine (responseJson r)]) [Domain r].

(** A request to the endpoint with the given values of [domain]. *)
Definition endpointRequest (values : list string) : Request :=
  mkRequest "/publicsuffix" {[ "domain" := values ]}.

(** A request to the endpoint without a [domain] parameter. *)
Definition bareRequest : Request := mkRequest "/publicsuffix" ∅.

(** A lookup to run the handler on at concrete inputs: a fixed answer for
    two domains, and the argument itself with [false] otherwise. *)
Definition sampleLookup (domain : string) : string * bool :=
  if String.eqb domain "example.com" then ("com", true)
  else if String.eqb domain "foo.github.io" then ("github.io", false)
  else (domain, false).

End Http.

(** ** [main.go]: configuration and routing in [main] *)

Module Main.

(** [os.LookupEnv(key)] on an environment: the value of the variable and
    whether it is set. *)
Definition LookupEnv (env : gmap string string) (key : string) : string * bool :=
  match env !! key with
  | Some value => (value, true)
  | None => ("", false)
  end.

(** main.go:115-123 *)
Definition getEnv (env : gmap string string) (key fallback : string) : string :=
  let (value, exists_) := LookupEnv env key in
  if (exists_ : bool) then value else fallback.

(** main.go:139: [port := getEnv("PORT", "80")] *)
Definition port (env : gmap string string) : string := getEnv env "PORT" "80".

(** main.go:141: the line [log.Printf] writes. *)
Definition logLine (env : gmap string string) : string :=
  "listening on http://localhost:" ++ port env.

(** main.go:142: the address [fmt.Sprintf(":%s", port)] handed to
    [http.ListenAndServe]. *)
Definition listenAddress (env : gmap string string) : string := ":" ++ port env.

(** The handlers [main] registers (main.go:127-137). *)
Inductive Handler : Type :=
| StaticFileServer
| FaviconHandler
| PublicSuffixHandler
| RedirectHandler (url : string)
| IndexHandler.

(** [http.ServeMux]: the map from pattern to handler, the entries whose
    pattern ends in a slash, longest pattern first, and whether some
    pattern names a host. *)
Record ServeMux : Type := mkServeMux {
  m : gmap string Handler;
  es : list (string * Handler);
  hosts : bool
}.

Definition emptyMux : ServeMux := mkServeMux ∅ [] false.

Definition endsInSlash (pattern : string) : bool :=
  match String.get (String.length pattern - 1) pattern with
  | Some c => Ascii.eqb c "/"
  | None => false
  end.

Definition startsWithSlash (pattern : string) : bool :=
  match pattern with
  | String c _ => Ascii.eqb c "/"
  | EmptyString => false
  end.

(** [appendSorted]: the entry goes before the first one with a shorter
    pattern. *)
Fixpoint appendSorted (entries : list (string * Handler)) (e : string * Handler)
  : list (string * Handler) :=
  match entries with
  | [] => [e]
  | x :: rest =>
      if (String.length (fst x) <? String.length (fst e))%nat
      then e :: x :: rest
      else x :: appendSorted rest e
  end.

(** [mux.Handle(pattern, handler)]; [None] is the panic on an empty or an
    already registered pattern. *)
Definition Handle (pattern : string) (handler : Handler) (mux : ServeMux) : option ServeMux :=
  if String.eqb pattern "" then None
  else match m mux !! pattern with
       | Some _ => None
       | None =>
           Some (mkServeMux
                   (<[ pattern := handler ]> (m mux))
                   (if endsInSlash pattern then appendSorted (es mux) (pattern, handler)
                    else es mux)
                   (hosts mux || negb (startsWithSlash pattern)))
       end.

(** [mux.match(path)]: the handler registered for exactly this path, and
    otherwise that of the longest pattern ending in a slash that is a prefix
    of the path; with the handler comes its pattern.  The mux applies it to
    the request path once cleaned; what it does before (the redirect to the
    cleaned path, and from a subtree root to the root with its slash) is not
    part of this function. *)
Fixpoint firstPrefix (entries : list (string * Handler)) (path : string)
  : option (Handler * string) :=
  match entries with
  | [] => None
  | (pattern, h) :: rest =>
      if String.prefix pattern path then Some (h, pattern)
      else firstPrefix rest path
  end.

Definition match_ (mux : ServeMux) (path : string) : option (Handler * string) :=
  match m mux !! path with
  | Some h => Some (h, path)
  | None => firstPrefix (es mux) path
  end.

(** main.go:134 *)
Definition githubUrl : string := "https://github.com/stefankuehnel/publicsuffix.stefan-dev.de".

(** main.go:126-137: the registrations of [main] on the default mux, in the
    order of the source. *)
Definition registerRoutes : option ServeMux :=
  mux ← Handle "/static/" StaticFileServer emptyMux;
  mux ← Handle "/favicon.ico" FaviconHandler mux;
  mux ← Handle "/publicsuffix" PublicSuffixHandler mux;
  mux ← Handle "/github" (RedirectHandler githubUrl) mux;
  Handle "/" IndexHandler mux.

(** The handler the mux selects for a path. *)
Definition selected (mux : ServeMux) (path : string) : option Handler :=
  match match_ mux path with
  | Some (h, _) => Some h
  | None => None
  end.

End Main.

(** ** The classification core

    [main.go] delegates the classification to the imported package; its
    code is not in the repository.  This module follows sections 3, 4.1 and
    4.2 of the specification. *)

Module Classifier.

(** Modelled from the spec: the kind of a rule (section 3); the code of the
    rule table and of the classifier is the imported package's, not the
    repository's. *)
Inductive Kind : Type := Plain | Wildcard | Exception.

(** Modelled from the spec: the PSL section a rule was read from (section 3,
    [Rule.origin]). *)
Inductive RuleOrigin : Type := ICANN | PrivateEntity.

(** Modelled from the spec: one PSL entry (section 3); [labels] has the
    top-level label last. *)
Record Rule : Type := mkRule {
  labels : list string;
  kind : Kind;
  ruleOrigin : RuleOrigin
}.

(** Modelled from the spec: the two error kinds (section 7). *)
Inductive Error : Type := InvalidDomainError | MalformedRuleError.

(** Modelled from the spec: the classification result (section 3); its
    origin is a rule's origin, or [None] when no rule matched. *)
Record ClassificationResult : Type := mkResult {
  domain : string;
  matchedSuffix : string;
  origin : option RuleOrigin
}.

(** *** Strings and labels *)

(** Modelled from the spec: basic lowercase ASCII ("lowercase the input"). *)
Definition lowerAscii (c : ascii) : ascii :=
  let n := nat_of_ascii c in
  if (65 <=? n)%nat && (n <=? 90)%nat then ascii_of_nat (n + 32) else c.

(** Modelled from the spec: "lowercase the input", byte by byte. *)
Fixpoint lower (s : string) : string :=
  match s with
  | EmptyString => EmptyString
  | String c s' => String (lowerAscii c) (lower s')
  end.

(** Modelled from the spec: "strip a single trailing dot if present". *)
Fixpoint stripTrailingDot (s : string) : string :=
  match s with
  | EmptyString => EmptyString
  | String c EmptyString => if Ascii.eqb c "." then EmptyString else s
  | String c s' => String c (stripTrailingDot s')
  end.

(** Modelled from the spec: "split on [.]"; the empty string splits into
    one empty label. *)
Fixpoint splitDots (s : string) : list string :=
  match s with
  | EmptyString => [EmptyString]
  | String c s' =>
      if Ascii.eqb c "." then EmptyString :: splitDots s'
      else match splitDots s' with
           | l :: ls => String c l :: ls
           | [] => [String c EmptyString]
           end
  end.

(** Modelled from the spec: "the dot-joined label sequence". *)
Definition joinDots (ls : list string) : string := String.concat "." ls.

(** Modelled from the spec: the rightmost label of a label sequence. *)
Definition topLabel (ls : list string) : string := List.last ls "".

(** Modelled from the spec: the first two steps of the preprocessing of
    section 4.2, lowercasing and then stripping one trailing dot. *)
Definition normalize (d : string) : string := stripTrailingDot (lower d).

(** Modelled from the spec: the preprocessing of section 4.2; it fails when
    the input is empty after stripping or has an empty label. *)
Definition preprocess (d : string) : Error + list string :=
  let s := normalize d in
  let ls := splitDots s in
  if String.eqb s "" || existsb (String.eqb "") ls
  then inl InvalidDomainError
  else inr ls.

(** Modelled from the spec: the top-level label of a domain string. *)
Definition topLevelLabel (d : string) : string := topLabel (splitDots (normalize d)).

(** *** The rule table (section 4.1) *)

(** Modelled from the spec: the grammar of one rule line, read in the
    section [o]. *)
Definition parseRule (o : RuleOrigin) (line : string) : Rule :=
  match line with
  | String "!" rest => mkRule (splitDots (lower rest)) Exception o
  | String "*" (String "." rest) => mkRule (splitDots (lower rest)) Wildcard o
  | _ => mkRule (splitDots (lower line)) Plain o
  end.

(** Modelled from the spec: [rulesForTopLabel]; the table maps a top-level
    label to the rules that end in it, and an unknown label has no rules. *)
Definition rulesForTopLabel (t : gmap string (list Rule)) (label : string) : list Rule :=
  default [] (t !! label).

(** Modelled from the spec: the table is built once, each rule filed under
    its rightmost label. *)
Definition addRule (t : gmap string (list Rule)) (r : Rule) : gmap string (list Rule) :=
  <[ topLabel (labels r) := (rulesForTopLabel t (topLabel (labels r)) ++ [r])%list ]> t.

(** Modelled from the spec: the table of a list of rules. *)
Definition tableOf (rules : list Rule) : gmap string (list Rule) :=
  fold_left addRule rules ∅.

(** *** Matching (section 4.2, steps 1 to 5) *)

(** Modelled from the spec: label-by-label comparison; [p] is a prefix of
    [l]. *)
Fixpoint startsWith (l p : list string) : bool :=
  match p, l with
  | [], _ => true
  | a :: p', b :: l' => String.eqb a b && startsWith l' p'
  | _ :: _, [] => false
  end.

(** Modelled from the spec: the rule's labels are the domain's trailing
    labels; the comparison runs from the right. *)
Definition endsWith (ls p : list string) : bool := startsWith (rev ls) (rev p).

(** Modelled from the spec: step 2, whether a rule matches a label
    sequence, by the rule's kind. *)
Definition matches (r : Rule) (ls : list string) : bool :=
  match kind r with
  | Plain => endsWith ls (labels r)
  | Wildcard => endsWith ls (labels r) && (length (labels r) <? length ls)%nat
  | Exception => endsWith ls (labels r)
  end.

(** Modelled from the spec: the number of the domain's labels a rule's match
    covers; a wildcard consumes one label more than its stored pattern. *)
Definition matchLength (r : Rule) : nat :=
  match kind r with
  | Wildcard => S (length (labels r))
  | _ => length (labels r)
  end.

(** Modelled from the spec: the domain's trailing [n] labels. *)
Definition lastLabels (n : nat) (ls : list string) : list string :=
  skipn (length ls - n) ls.

(** Modelled from the spec: the labels a matching rule reports (step 5): a
    plain rule its own labels, a wildcard its pattern and one label more,
    an exception its labels without the leading, exempted one. *)
Definition matchedLabels (r : Rule) (ls : list string) : list string :=
  match kind r with
  | Plain => labels r
  | Wildcard => lastLabels (S (length (labels r))) ls
  | Exception => tl (labels r)
  end.

(** Modelled from the spec: the kind tests used in step 3. *)
Definition isException (r : Rule) : bool :=
  match kind r with Exception => true | _ => false end.

(** Modelled from the spec: see [isException]. *)
Definition isWildcard (r : Rule) : bool :=
  match kind r with Wildcard => true | _ => false end.

(** Modelled from the spec: steps 1 and 2, the candidates that match. *)
Definition matching (t : gmap string (list Rule)) (ls : list string) : list Rule :=
  List.filter (fun r => matches r ls) (rulesForTopLabel t (topLabel ls)).

(** Modelled from the spec: step 3, a matching exception overrides the
    matching wildcards. *)
Definition applicable (t : gmap string (list Rule)) (ls : list string) : list Rule :=
  let ms := matching t ls in
  if existsb isException ms
  then List.filter (fun r => negb (isWildcard r)) ms
  else ms.

(** Modelled from the spec: step 3, "longest match wins"; of two rules of
    the same length the earlier one is kept. *)
Fixpoint longest (rs : list Rule) : option Rule :=
  match rs with
  | [] => None
  | r :: rs' =>
      match longest rs' with
      | Some r' => if (matchLength r <? matchLength r')%nat then Some r' else Some r
      | None => Some r
      end
  end.

(** Modelled from the spec: steps 3 to 5 on a label sequence; without a
    matching rule the implicit rule ["*"] gives the top-level label alone,
    with origin [None]. *)
Definition classifyLabels (t : gmap string (list Rule)) (ls : list string)
  : list string * option RuleOrigin :=
  match longest (applicable t ls) with
  | Some r => (matchedLabels r ls, Some (ruleOrigin r))
  | None => ([topLabel ls], None)
  end.

(** Modelled from the spec: [classify] (section 4.2).  The [domain] of the
    result is the caller's string, as the endpoint echoes it (main.go:79). *)
Definition classify (t : gmap string (list Rule)) (d : string) : Error + ClassificationResult :=
  match preprocess d with
  | inl e => inl e
  | inr ls =>
      let (m, o) := classifyLabels t ls in
      inr {| domain := d; matchedSuffix := joinDots m; origin := o |}
  end.

(** Modelled from the spec: the external names of the origins (section 6). *)
Definition originName (o : option RuleOrigin) : string :=
  match o with
  | Some ICANN => "ICANN"
  | Some PrivateEntity => "PRIVATE_ENTITY"
  | None => "NONE"
  end.

(** Modelled from the spec: the rules of the examples of section 8, the
    plain rules ["uk"] and ["co.uk"], the wildcard ["*.ck"] and the exception
    ["!www.ck"], all of the ICANN section. *)
Definition rule_uk : Rule := parseRule ICANN "uk".
Definition rule_co_uk : Rule := parseRule ICANN "co.uk".
Definition rule_wild_ck : Rule := parseRule ICANN "*.ck".
Definition rule_except_www_ck : Rule := parseRule ICANN "!www.ck".

End Classifier.

(** ** What [encoding/json] puts on the wire

    [json.Encoder] writes a Go string as a JSON string coerced to valid
    UTF-8: every byte at which [utf8.DecodeRuneInString] reports
    [(RuneError, 1)] is written as the escape of U+FFFD; all other bytes
    reach the reader of the document as they are, escaped or not. *)

Module Wire.
Import Go.

(** The byte at index [i] of [s] lies in [lo .. hi]. *)
Definition byteIn (lo hi : nat) (s : string) (i : nat) : bool :=
  match String.get i s with
  | Some c => (lo <=? nat_of_ascii c)%nat && (nat_of_ascii c <=? hi)%nat
  | None => false
  end.

(** [utf8.DecodeRuneInString(s)] on a non-empty [s], without the rune: the
    width of the encoding that starts [s], or [None] where Go returns
    [(RuneError, 1)].  The second byte's range depends on the first one
    (the table [first] and [acceptRanges] of package [utf8]); further bytes
    are in [0x80 .. 0xBF]. *)
Definition runeWidth (s : string) : option nat :=
  match s with
  | EmptyString => None
  | String c0 _ =>
      let b := nat_of_ascii c0 in
      if (b <? 128)%nat then Some 1%nat
      else if (b <? 194)%nat then None
      else if (b <? 224)%nat then
        if byteIn 128 191 s 1 then Some 2%nat else None
      else if (b <? 240)%nat then
        let lo := if (b =? 224)%nat then 160%nat else 128%nat in
        let hi := if (b =? 237)%nat then 159%nat else 191%nat in
        if byteIn lo hi s 1 && byteIn 128 191 s 2 then Some 3%nat else None
      else if (b <? 245)%nat then
        let lo := if (b =? 240)%nat then 144%nat else 128%nat in
        let hi := if (b =? 244)%nat then 143%nat else 191%nat in
        if byteIn lo hi s 1 && byteIn 128 191 s 2 && byteIn 128 191 s 3
        then Some 4%nat else None
      else None
  end.

(** The UTF-8 encoding of U+FFFD, the bytes [EF BF BD]. *)
Definition replacement : string :=
  String (ascii_of_nat 239) (String (ascii_of_nat 191) (String (ascii_of_nat 189) EmptyString)).

(** The string a reader of the JSON document gets for the Go string [s]:
    [skip] counts the bytes still to copy of the encoding in progress. *)
Fixpoint coerceFrom (skip : nat) (s : string) : string :=
  match s with
  | EmptyString => EmptyString
  | String c rest =>
      match skip with
      | S k => String c (coerceFrom k rest)
      | O =>
          match runeWidth s with
          | Some width => String c (coerceFrom (width - 1) rest)
          | None => replacement ++ coerceFrom 0 rest
          end
      end
  end.

Definition coerce (s : string) : string := coerceFrom 0 s.

(** [utf8.ValidString(s)]: no position decodes to [(RuneError, 1)]. *)
Fixpoint validFrom (skip : nat) (s : string) : bool :=
  match s with
  | EmptyString => true
  | String c rest =>
      match skip with
      | S k => validFrom k rest
      | O =>
          match runeWidth s with
          | Some width => validFrom (width - 1) rest
          | None => false
          end
      end
  end.

Definition ValidString (s : string) : bool := validFrom 0 s.

(** The object a reader decodes from what [Encode] wrote for [j]: the
    member names here are ASCII literals, numbers are written as they are,
    strings are coerced. *)
Definition sentValue (v : JsonValue) : JsonValue :=
  match v with
  | JString s => JString (coerce s)
  | JNumber n => JNumber n
  end.

Definition sent (j : Json) : Json := map (fun p => (fst p, sentValue (snd p))) j.

(** A [domain] value that is not valid UTF-8: the byte [0xFF] and [".com"],
    as the query [domain=%ff.com] gives it. *)
Definition byteFFcom : string := String (ascii_of_nat 255) ".com".

End Wire.

(** * Properties of the handler of [main.go] *)

Module HttpFacts.
Import Go Http.
Local Open Scope Z_scope.

(** [strings.IndexByte] stays in [-1 ..]. *)
Lemma IndexByte_lower_bound (s : string) (c : ascii) : -1 <= IndexByte s c.
Proof.
  induction s as [|a s IH]; simpl; [lia|].
  destruct (Ascii.eqb a c); [lia|].
  destruct (IndexByte s c <? 0) eqn:E; [lia|].
  apply Z.ltb_ge in E. lia.
Qed.

(** [strings.IndexByte(s, c) >= 0] says that [c] occurs in [s]. *)
Lemma IndexByte_nonneg_iff (s : string) (c : ascii) :
  0 <= IndexByte s c <-> containsByte s c.
Proof.
  unfold containsByte. induction s as [|a s IH]; simpl.
  - split; [lia | tauto].
  - destruct (Ascii.eqb a c) eqn:Eac.
    + apply Ascii.eqb_eq in Eac. split; [auto | lia].
    + apply Ascii.eqb_neq in Eac.
      destruct (IndexByte s c <? 0) eqn:E.
      * apply Z.ltb_lt in E. split; [lia|].
        intros [H|H]; [contradiction|]. apply IH in H. lia.
      * apply Z.ltb_ge in E. split; [intros _; right; apply IH; lia | lia].
Qed.

Lemma Get_empty_iff (v : gmap string (list string)) (key : string) :
  Get v key = "" <->
  v !! key = None \/ v !! key = Some [] \/ exists rest, v !! key = Some ("" :: rest).
Proof.
  unfold Get. destruct (v !! key) as [[|x rest]|]; split; intros H; auto.
  - subst. right; right. eauto.
  - destruct H as [H|[H|[rest' H]]]; congruence.
Qed.

Section Served.
Variable lookup : string -> string * bool.

(** The handler on a request to the endpoint, case by case. *)
Lemma serve_empty (req : Request) :
  Path req = "/publicsuffix" -> Get (Query req) "domain" = "" ->
  serve lookup req = rejectedWorld.
Proof.
  intros HP HG. unfold serve, publicSuffixHttpHandler.
  rewrite HP, HG. reflexivity.
Qed.

Lemma serve_nonempty (req : Request) :
  Path req = "/publicsuffix" -> Get (Query req) "domain" <> "" ->
  serve lookup req = answeredWorld (responseOf lookup (Get (Query req) "domain")).
Proof.
  intros HP HG. unfold serve, publicSuffixHttpHandler.
  rewrite HP. apply String.eqb_neq in HG.
  change (negb ("/publicsuffix" =? "/publicsuffix")%string) with false. cbv iota.
  cbv zeta. unfold bind at 1. simpl. rewrite HG.
  unfold responseOf, publicSuffixHttpResponse, bind, callPublicSuffix, answeredWorld; simpl.
  destruct (lookup (Get (Query req) "domain")) as [suffix icann]; reflexivity.
Qed.

Lemma responseOf_eq (d : string) :
  responseOf lookup d =
  {| Domain := d;
     PublicSuffix := fst (lookup d);
     IsManagedBy := isManagedByOf (fst (lookup d)) (snd (lookup d)) |}.
Proof.
  unfold responseOf, publicSuffixHttpResponse, bind, callPublicSuffix; simpl.
  destruct (lookup d); reflexivity.
Qed.

End Served.

Lemma isManagedByOf_cases (s : string) (icann : bool) :
  (isManagedByOf s icann = "ICANN" <-> icann = true) /\
  (isManagedByOf s icann = "PRIVATE_ENTITY" <-> icann = false /\ containsByte s ".") /\
  (isManagedByOf s icann = "NONE" <-> icann = false /\ ~ containsByte s ".").
Proof.
  unfold isManagedByOf. destruct icann.
  - repeat split; intros; try discriminate; try tauto; destruct H; discriminate.
  - destruct (IndexByte s "." >=? 0) eqn:E.
    + assert (containsByte s ".") by (apply IndexByte_nonneg_iff; lia).
      repeat split; intros; try discriminate; try tauto.
    + assert (~ containsByte s ".") by (rewrite <- IndexByte_nonneg_iff; lia).
      repeat split; intros; try discriminate; try tauto.
Qed.

End HttpFacts.

(** * Properties of the classification core *)

Module ClassifierFacts.
Import Classifier.

(** [longest] returns a rule of the list, and none is longer. *)
Lemma longest_nil_iff (rs : list Rule) : longest rs = None <-> rs = [].
Proof.
  destruct rs as [|r rs]; simpl; [tauto|].
  split; [|discriminate].
  destruct (longest rs) as [r'|]; [|discriminate].
  destruct (matchLength r <? matchLength r')%nat; discriminate.
Qed.

Lemma longest_is_max (rs : list Rule) (r : Rule) :
  longest rs = Some r ->
  In r rs /\ forall r', In r' rs -> (matchLength r' <= matchLength r)%nat.
Proof.
  revert r. induction rs as [|a rs IH]; simpl; intros r H; [discriminate|].
  destruct (longest rs) as [b|] eqn:E.
  - destruct (IH b eq_refl) as [Hin Hmax].
    destruct (matchLength a <? matchLength b)%nat eqn:L; inversion H; subst.
    + apply Nat.ltb_lt in L. split; [auto|].
      intros r' [->|Hr']; [lia | auto].
    + apply Nat.ltb_ge in L. split; [auto|].
      intros r' [->|Hr']; [lia|]. specialize (Hmax r' Hr'). lia.
  - inversion H; subst. apply longest_nil_iff in E. subst rs.
    split; [auto|]. intros r' [->|[]]; lia.
Qed.

(** The matching candidates are the rules filed under the domain's top-level
    label that match it. *)
Lemma in_matching (t : gmap string (list Rule)) (ls : list string) (r : Rule) :
  In r (matching t ls) <->
  In r (rulesForTopLabel t (topLabel ls)) /\ matches r ls = true.
Proof. unfold matching. apply filter_In. Qed.

Lemma in_applicable (t : gmap string (list Rule)) (ls : list string) (r : Rule) :
  In r (applicable t ls) -> In r (matching t ls).
Proof.
  unfold applicable. destruct (existsb isException (matching t ls)); [|auto].
  intros H. apply filter_In in H. tauto.
Qed.

(** Without a matching exception nothing is overridden. *)
Lemma applicable_no_exception (t : gmap string (list Rule)) (ls : list string) :
  (forall r, In r (matching t ls) -> isException r = false) ->
  applicable t ls = matching t ls.
Proof.
  intros H. unfold applicable.
  destruct (existsb isException (matching t ls)) eqn:E; [|reflexivity].
  apply existsb_exists in E. destruct E as [r [Hr Hx]].
  rewrite (H r Hr) in Hx. discriminate.
Qed.

(** With a matching exception the wildcards go. *)
Lemma applicable_exception (t : gmap string (list Rule)) (ls : list string) (x r : Rule) :
  In x (matching t ls) -> isException x = true ->
  (In r (applicable t ls) <-> In r (matching t ls) /\ isWildcard r = false).
Proof.
  intros Hx Hk. unfold applicable.
  assert (E : existsb isException (matching t ls) = true)
    by (apply existsb_exists; eauto).
  rewrite E, filter_In. rewrite negb_true_iff. tauto.
Qed.

Lemma applicable_nil (t : gmap string (list Rule)) (ls : list string) :
  matching t ls = [] -> applicable t ls = [].
Proof. intros H. unfold applicable. rewrite H. reflexivity. Qed.

(** On a valid domain [classify] is [classifyLabels] on its labels. *)
Lemma classify_labels (t : gmap string (list Rule)) (d : string) (ls : list string) :
  preprocess d = inr ls ->
  classify t d =
  inr {| domain := d;
         matchedSuffix := joinDots (fst (classifyLabels t ls));
         origin := snd (classifyLabels t ls) |}.
Proof.
  intros H. unfold classify. rewrite H.
  destruct (classifyLabels t ls); reflexivity.
Qed.

Lemma preprocess_labels (d : string) (ls : list string) :
  preprocess d = inr ls -> ls = splitDots (normalize d).
Proof.
  unfold preprocess.
  destruct (_ || _); [discriminate|]. intros H. inversion H. reflexivity.
Qed.

(** No rule applies: the implicit rule gives the top-level label. *)
Lemma classify_default (t : gmap string (list Rule)) (d : string) (ls : list string) :
  preprocess d = inr ls -> matching t ls = [] ->
  classify t d = inr {| domain := d; matchedSuffix := topLabel ls; origin := None |}.
Proof.
  intros H Hm. rewrite (classify_labels t d ls H).
  unfold classifyLabels. rewrite (applicable_nil t ls Hm). simpl.
  unfold joinDots. reflexivity.
Qed.

(** A rule that is strictly longer than every other applicable rule is the
    one [classify] reports. *)
Lemma classify_unique_longest (t : gmap string (list Rule)) (d : string)
      (ls : list string) (r : Rule) :
  preprocess d = inr ls ->
  In r (applicable t ls) ->
  (forall r', In r' (applicable t ls) -> r' = r \/ (matchLength r' < matchLength r)%nat) ->
  classify t d =
  inr {| domain := d;
         matchedSuffix := joinDots (matchedLabels r ls);
         origin := Some (ruleOrigin r) |}.
Proof.
  intros H Hin Hlt. rewrite (classify_labels t d ls H). unfold classifyLabels.
  destruct (longest (applicable t ls)) as [r0|] eqn:E.
  - destruct (longest_is_max _ _ E) as [Hin0 Hmax].
    destruct (Hlt r0 Hin0) as [->|Hl]; [reflexivity|].
    specialize (Hmax r Hin). lia.
  - apply longest_nil_iff in E. rewrite E in Hin. destruct Hin.
Qed.

(** The top-level label of a valid domain is not empty. *)
Lemma topLabel_in (ls : list string) : ls <> [] -> In (topLabel ls) ls.
Proof.
  unfold topLabel. induction ls as [|a [|b ls] IH]; intros H; [congruence|simpl; auto|].
  right. apply IH. discriminate.
Qed.

Lemma splitDots_not_nil (s : string) : splitDots s <> [].
Proof.
  induction s as [|c s IH]; simpl; [discriminate|].
  destruct (Ascii.eqb c "."); [discriminate|].
  destruct (splitDots s); discriminate.
Qed.

Lemma preprocess_topLabel_nonempty (d : string) (ls : list string) :
  preprocess d = inr ls -> topLabel ls <> "".
Proof.
  intros H. pose proof (preprocess_labels d ls H) as Hls.
  unfold preprocess in H. fold (normalize d) in H. rewrite <- Hls in H.
  destruct (String.eqb (normalize d) "" || existsb (String.eqb "") ls) eqn:E; [discriminate|].
  apply orb_false_iff in E. destruct E as [_ E].
  intros Ht.
  assert (Hin : In (topLabel ls) ls)
    by (apply topLabel_in; rewrite Hls; apply splitDots_not_nil).
  assert (existsb (String.eqb "") ls = true).
  { apply existsb_exists. exists (topLabel ls). split; [exact Hin|].
    rewrite Ht. reflexivity. }
  congruence.
Qed.

End ClassifierFacts.

(** * Further facts about matching *)

Module SuffixFacts.
Import Classifier ClassifierFacts.

Lemma startsWith_refl (l : list string) : startsWith l l = true.
Proof.
  induction l as [|a l IH]; [reflexivity|].
  cbn [startsWith]. rewrite String.eqb_refl. exact IH.
Qed.

Lemma startsWith_app (l p : list string) :
  startsWith l p = true -> exists k, l = (p ++ k)%list.
Proof.
  revert l. induction p as [|a p IH]; intros l H.
  - exists l. reflexivity.
  - destruct l as [|b l]; [discriminate|].
    cbn [startsWith] in H. apply andb_true_iff in H. destruct H as [Hab Hl].
    apply String.eqb_eq in Hab. subst b.
    destruct (IH l Hl) as [k ->]. exists k. reflexivity.
Qed.

Lemma endsWith_refl (ls : list string) : endsWith ls ls = true.
Proof. apply startsWith_refl. Qed.

Lemma endsWith_length (ls p : list string) :
  endsWith ls p = true ->
  (length p <= length ls)%nat /\ (length p = length ls -> p = ls).
Proof.
  unfold endsWith. intros H. apply startsWith_app in H. destruct H as [k Hk].
  assert (Hl : length ls = (length p + length k)%nat).
  { rewrite <- (length_rev ls), Hk, length_app, length_rev. reflexivity. }
  split; [lia|]. intros E.
  assert (k = []) by (destruct k; [reflexivity | simpl in Hl; lia]). subst k.
  rewrite app_nil_r in Hk. rewrite <- (rev_involutive ls), Hk.
  symmetry. apply rev_involutive.
Qed.

(** A plain rule matches the label sequence it lists. *)
Lemma plain_matches_itself (r : Rule) : kind r = Plain -> matches r (labels r) = true.
Proof. intros H. unfold matches. rewrite H. apply endsWith_refl. Qed.

(** A plain rule that matches is applicable: exceptions override wildcards
    only. *)
Lemma plain_applicable (t : gmap string (list Rule)) (ls : list string) (r : Rule) :
  kind r = Plain -> In r (matching t ls) -> In r (applicable t ls).
Proof.
  intros Hk Hin. unfold applicable.
  destruct (existsb isException (matching t ls)); [|exact Hin].
  apply filter_In. split; [exact Hin|]. unfold isWildcard. rewrite Hk. reflexivity.
Qed.

(** A rule that matches a sequence and covers all of its labels reports the
    whole sequence, unless it is an exception. *)
Lemma covering_rule_reports_all (r : Rule) (ls : list string) :
  matches r ls = true -> (length ls <= matchLength r)%nat ->
  isException r = false -> matchedLabels r ls = ls.
Proof.
  unfold matches, matchLength, matchedLabels, isException.
  destruct (kind r); intros Hm Hl Hx.
  - destruct (endsWith_length ls (labels r) Hm) as [Hle Heq]. apply Heq. lia.
  - apply andb_true_iff in Hm. destruct Hm as [_ Hlt]. apply Nat.ltb_lt in Hlt.
    unfold lastLabels.
    replace (length ls - S (length (labels r)))%nat with 0%nat by lia. reflexivity.
  - discriminate.
Qed.

End SuffixFacts.

(** * Properties of the coercion to valid UTF-8 *)

Module WireFacts.
Import Go Wire.

Lemma coerceFrom_none (c : ascii) (rest : string) :
  runeWidth (String c rest) = None ->
  coerceFrom 0 (String c rest) =
  String (ascii_of_nat 239) (String (ascii_of_nat 191)
    (String (ascii_of_nat 189) (coerceFrom 0 rest))).
Proof.
  intros H. change (coerceFrom 0 (String c rest))
    with (match runeWidth (String c rest) with
          | Some width => String c (coerceFrom (width - 1) rest)
          | None => replacement ++ coerceFrom 0 rest
          end).
  rewrite H. reflexivity.
Qed.

Lemma coerceFrom_some (c : ascii) (rest : string) (width : nat) :
  runeWidth (String c rest) = Some width ->
  coerceFrom 0 (String c rest) = String c (coerceFrom (width - 1) rest).
Proof.
  intros H. change (coerceFrom 0 (String c rest))
    with (match runeWidth (String c rest) with
          | Some width => String c (coerceFrom (width - 1) rest)
          | None => replacement ++ coerceFrom 0 rest
          end).
  rewrite H. reflexivity.
Qed.

Lemma validFrom_zero (c : ascii) (rest : string) :
  validFrom 0 (String c rest) =
  match runeWidth (String c rest) with
  | Some width => validFrom (width - 1) rest
  | None => false
  end.
Proof. reflexivity. Qed.

(** Coercion never shortens a string. *)
Lemma coerceFrom_length (s : string) :
  forall skip, (String.length s <= String.length (coerceFrom skip s))%nat.
Proof.
  induction s as [|c rest IH]; intros skip; [reflexivity|].
  destruct skip as [|k].
  - destruct (runeWidth (String c rest)) as [width|] eqn:E.
    + rewrite (coerceFrom_some c rest width E). cbn [String.length].
      specialize (IH (width - 1)%nat). lia.
    + rewrite (coerceFrom_none c rest E). cbn [String.length].
      specialize (IH 0%nat). lia.
  - cbn [coerceFrom String.length]. specialize (IH k). lia.
Qed.

(** A valid string is written as it is, and only a valid one is. *)
Lemma coerceFrom_fixed_iff (s : string) :
  forall skip, coerceFrom skip s = s <-> validFrom skip s = true.
Proof.
  induction s as [|c rest IH]; intros skip; [split; reflexivity|].
  destruct skip as [|k].
  - rewrite validFrom_zero.
    destruct (runeWidth (String c rest)) as [width|] eqn:E.
    + rewrite (coerceFrom_some c rest width E). rewrite <- IH.
      split; intros H; [inversion H; congruence | rewrite H; reflexivity].
    + rewrite (coerceFrom_none c rest E). split; [|discriminate].
      intros H. apply (f_equal String.length) in H. cbn [String.length] in H.
      pose proof (coerceFrom_length rest 0). lia.
  - cbn [coerceFrom validFrom]. rewrite <- IH.
    split; intros H; [inversion H; congruence | rewrite H; reflexivity].
Qed.

Lemma coerce_fixed_iff (s : string) : coerce s = s <-> ValidString s = true.
Proof. apply coerceFrom_fixed_iff. Qed.

End WireFacts.

(** * The claims about the endpoint *)

Section EndpointClaims.
Import Go Http HttpFacts Wire WireFacts.
Local Open Scope Z_scope.

(** C7.  For a request to the endpoint whose [domain] parameter is not
    empty, the body is one JSON object with exactly the members [domain],
    [publicSuffix] and [isManagedBy], in this order, and [isManagedBy] is
    one of the strings ["ICANN"], ["PRIVATE_ENTITY"], ["NONE"]; it is never
    another string, the empty one included.  The string is the external name
    of the origin the handler reports: ICANN when the lookup's flag holds,
    otherwise PrivateEntity when the suffix has a dot, otherwise None; the
    names are ["ICANN"], ["PRIVATE_ENTITY"] and ["NONE"], one per origin. *)
Theorem response_has_three_fields (lookup : string -> string * bool) (req : Request) :
  Path req = "/publicsuffix" ->
  Get (Query req) "domain" <> "" ->
  exists (j : Json) (m : string),
    body (writer (serve lookup req)) = [JsonLine j] /\
    memberNames j = ["domain"; "publicSuffix"; "isManagedBy"] /\
    member j "isManagedBy" = Some (JString m) /\
    (m = "ICANN" \/ m = "PRIVATE_ENTITY" \/ m = "NONE") /\
    m <> "" /\
    (exists o : option Classifier.RuleOrigin,
       m = Classifier.originName o /\
       (o = Some Classifier.ICANN <-> snd (lookup (Get (Query req) "domain")) = true) /\
       (o = Some Classifier.PrivateEntity <->
          snd (lookup (Get (Query req) "domain")) = false /\
          containsByte (fst (lookup (Get (Query req) "domain"))) ".") /\
       (o = None <->
          snd (lookup (Get (Query req) "domain")) = false /\
          ~ containsByte (fst (lookup (Get (Query req) "domain"))) ".")) /\
    (Classifier.originName (Some Classifier.ICANN) = "ICANN" /\
     Classifier.originName (Some Classifier.PrivateEntity) = "PRIVATE_ENTITY" /\
     Classifier.originName None = "NONE") /\
    (forall o o', Classifier.originName o = Classifier.originName o' -> o = o').
Proof.
  intros HP HG. rewrite (serve_nonempty lookup req HP HG).
  set (d := Get (Query req) "domain").
  exists (responseJson (responseOf lookup d)), (IsManagedBy (responseOf lookup d)).
  rewrite responseOf_eq. cbn [IsManagedBy].
  split; [reflexivity|]. split; [reflexivity|]. split; [reflexivity|].
  destruct (isManagedByOf_cases (fst (lookup d)) (snd (lookup d))) as [Hi [Hp Hn]].
  split; [|split; [|split; [|split]]].
  - unfold isManagedByOf. destruct (snd (lookup d)); [auto|].
    destruct (IndexByte _ _ >=? 0); auto.
  - unfold isManagedByOf. destruct (snd (lookup d)); [discriminate|].
    destruct (IndexByte _ _ >=? 0); discriminate.
  - destruct (snd (lookup d)) eqn:Ei.
    + exists (Some Classifier.ICANN). split; [apply Hi; reflexivity|].
      repeat split; intros; try discriminate; try reflexivity;
        repeat match goal with H : _ /\ _ |- _ => destruct H end; discriminate.
    + destruct (IndexByte (fst (lookup d)) "." >=? 0) eqn:Ed.
      * assert (Hc : containsByte (fst (lookup d)) ".")
          by (apply IndexByte_nonneg_iff; lia).
        exists (Some Classifier.PrivateEntity).
        split; [apply Hp; split; [reflexivity | exact Hc]|].
        repeat split; intros; try discriminate; try reflexivity; try assumption;
          repeat match goal with H : _ /\ _ |- _ => destruct H end;
          try discriminate; try contradiction.
      * assert (Hc : ~ containsByte (fst (lookup d)) ".")
          by (rewrite <- IndexByte_nonneg_iff; lia).
        exists None.
        split; [apply Hn; split; [reflexivity | exact Hc]|].
        repeat split; intros; try discriminate; try reflexivity; try assumption;
          repeat match goal with H : _ /\ _ |- _ => destruct H end;
          try discriminate; try contradiction.
  - repeat split.
  - intros [[|]|] [[|]|] H; try reflexivity; discriminate H.
Qed.

Lemma response_has_three_fields_witness :
  exists j : Json,
    body (writer (serve sampleLookup (endpointRequest ["foo.github.io"]))) = [JsonLine j] /\
    memberNames j = ["domain"; "publicSuffix"; "isManagedBy"] /\
    member j "isManagedBy" = Some (JString (Classifier.originName (Some Classifier.PrivateEntity))).
Proof.
  assert (HG : Get (Query (endpointRequest ["foo.github.io"])) "domain" <> "")
    by (vm_compute; discriminate).
  destruct (response_has_three_fields sampleLookup (endpointRequest ["foo.github.io"])
              eq_refl HG)
    as [j [m [Hb [Hn [Hm [_ [_ [[o [Ho [_ [Hp _]]]] _]]]]]]]].
  exists j. split; [exact Hb|]. split; [exact Hn|].
  assert (Hpriv : o = Some Classifier.PrivateEntity).
  { apply Hp. split; [reflexivity|].
    unfold containsByte. vm_compute. tauto. }
  rewrite Hm, Ho, Hpriv. reflexivity.
Defined.

(** C8.  When the [domain] parameter is missing or empty, the endpoint
    answers with status 400, which is of the 400 class, and one JSON object
    with exactly the members [errorCode], [errorType] and [errorMessage];
    the lookup is not called, and the answer is the same whatever the
    lookup is. *)
Theorem empty_parameter_rejected (lookup : string -> string * bool) (req : Request) :
  Path req = "/publicsuffix" ->
  (Query req !! "domain" = None \/
   Query req !! "domain" = Some [] \/
   exists rest, Query req !! "domain" = Some ("" :: rest)) ->
  let w := serve lookup req in
  status (writer w) = Some StatusBadRequest /\
  isClientError w = true /\
  (exists j, body (writer w) = [JsonLine j] /\
             memberNames j = ["errorCode"; "errorType"; "errorMessage"]) /\
  lookups w = [] /\
  (forall lookup', serve lookup' req = w).
Proof.
  intros HP HQ w. apply Get_empty_iff in HQ. subst w.
  rewrite (serve_empty lookup req HP HQ).
  repeat split; try reflexivity.
  - exists errorJson. split; reflexivity.
  - intros lookup'. apply serve_empty; assumption.
Qed.

Lemma empty_parameter_rejected_witness :
  (let w := serve sampleLookup bareRequest in
   status (writer w) = Some StatusBadRequest /\
   isClientError w = true /\
   (exists j, body (writer w) = [JsonLine j] /\
              memberNames j = ["errorCode"; "errorType"; "errorMessage"]) /\
   lookups w = [] /\
   (forall lookup', serve lookup' bareRequest = w)) /\
  (let w := serve sampleLookup (endpointRequest [""; "example.com"]) in
   status (writer w) = Some StatusBadRequest /\
   isClientError w = true /\
   (exists j, body (writer w) = [JsonLine j] /\
              memberNames j = ["errorCode"; "errorType"; "errorMessage"]) /\
   lookups w = [] /\
   (forall lookup', serve lookup' (endpointRequest [""; "example.com"]) = w)).
Proof.
  split.
  - apply (empty_parameter_rejected sampleLookup bareRequest).
    + reflexivity.
    + left. vm_compute. reflexivity.
  - apply (empty_parameter_rejected sampleLookup (endpointRequest [""; "example.com"])).
    + reflexivity.
    + right; right. exists ["example.com"]. vm_compute. reflexivity.
Defined.

(** C9.  For a non-empty [domain] parameter, with [(suffix, icann)] the two
    results of the lookup on it: [isManagedBy] is ["ICANN"] exactly when
    [icann] holds, ["PRIVATE_ENTITY"] exactly when it does not and [suffix]
    contains a dot, and ["NONE"] exactly when it does not and [suffix]
    contains no dot.  So a suffix of one label that is not ICANN-managed is
    reported as ["NONE"]. *)
Theorem managed_by_follows_dot_heuristic (lookup : string -> string * bool) (req : Request) :
  Path req = "/publicsuffix" ->
  Get (Query req) "domain" <> "" ->
  let suffix := fst (lookup (Get (Query req) "domain")) in
  let icann := snd (lookup (Get (Query req) "domain")) in
  exists (j : Json) (m : string),
    body (writer (serve lookup req)) = [JsonLine j] /\
    member j "publicSuffix" = Some (JString suffix) /\
    member j "isManagedBy" = Some (JString m) /\
    (m = "ICANN" <-> icann = true) /\
    (m = "PRIVATE_ENTITY" <-> icann = false /\ containsByte suffix ".") /\
    (m = "NONE" <-> icann = false /\ ~ containsByte suffix ".").
Proof.
  intros HP HG suffix icann. rewrite (serve_nonempty lookup req HP HG).
  set (d := Get (Query req) "domain") in *.
  exists (responseJson (responseOf lookup d)), (IsManagedBy (responseOf lookup d)).
  rewrite responseOf_eq. simpl.
  split; [reflexivity|]. split; [reflexivity|]. split; [reflexivity|].
  apply isManagedByOf_cases.
Qed.

Lemma managed_by_follows_dot_heuristic_witness :
  exists (j : Json) (m : string),
    body (writer (serve (fun _ => ("dev", false)) (endpointRequest ["example.dev"]))) = [JsonLine j] /\
    member j "publicSuffix" = Some (JString "dev") /\
    member j "isManagedBy" = Some (JString m) /\
    (m = "ICANN" <-> false = true) /\
    (m = "PRIVATE_ENTITY" <-> false = false /\ containsByte "dev" ".") /\
    (m = "NONE" <-> false = false /\ ~ containsByte "dev" ".").
Proof.
  apply (managed_by_follows_dot_heuristic (fun _ => ("dev", false)) (endpointRequest ["example.dev"])).
  - reflexivity.
  - vm_compute. discriminate.
Defined.

(** C10, as stated, fails on the bytes the endpoint sends: for the
    parameter made of the byte [0xFF] and [".com"], whatever the lookup is,
    the [domain] a reader of the JSON answer gets is not the caller's
    string. *)
Lemma invalid_utf8_domain_is_not_echoed :
  ~ (exists lookup j,
       body (writer (serve lookup (endpointRequest [byteFFcom]))) = [JsonLine j] /\
       member (sent j) "domain" = Some (JString byteFFcom)).
Proof.
  intros [lookup [j [Hb Hm]]].
  rewrite serve_nonempty in Hb; [|reflexivity|vm_compute; discriminate].
  inversion Hb. subst j. rewrite responseOf_eq in Hm.
  vm_compute in Hm. discriminate Hm.
Qed.

(** C10, amended.  For a non-empty [domain] parameter, the [domain] member
    the handler hands to the JSON encoder is the string it read from the
    query, unchanged.  What a reader of the answer gets is that string
    coerced to valid UTF-8, and it is the caller's string, character for
    character, exactly when that string is valid UTF-8. *)
Theorem domain_is_echoed_raw (lookup : string -> string * bool) (req : Request) :
  Path req = "/publicsuffix" ->
  Get (Query req) "domain" <> "" ->
  exists j : Json,
    body (writer (serve lookup req)) = [JsonLine j] /\
    member j "domain" = Some (JString (Get (Query req) "domain")) /\
    member (sent j) "domain" = Some (JString (coerce (Get (Query req) "domain"))) /\
    (member (sent j) "domain" = Some (JString (Get (Query req) "domain")) <->
     ValidString (Get (Query req) "domain") = true).
Proof.
  intros HP HG. rewrite (serve_nonempty lookup req HP HG).
  set (d := Get (Query req) "domain").
  exists (responseJson (responseOf lookup d)). rewrite responseOf_eq.
  split; [reflexivity|]. split; [reflexivity|].
  change (member (sent (responseJson
            {| Domain := d; PublicSuffix := fst (lookup d);
               IsManagedBy := isManagedByOf (fst (lookup d)) (snd (lookup d)) |})) "domain")
    with (Some (JString (coerce d))).
  split; [reflexivity|].
  rewrite <- coerce_fixed_iff.
  split; intros H; [inversion H; congruence | rewrite H; reflexivity].
Qed.

Lemma domain_is_echoed_raw_witness :
  exists j : Json,
    body (writer (serve sampleLookup (endpointRequest ["Example.COM."]))) = [JsonLine j] /\
    member j "domain" = Some (JString "Example.COM.") /\
    member (sent j) "domain" = Some (JString (coerce "Example.COM.")) /\
    (member (sent j) "domain" = Some (JString "Example.COM.") <->
     ValidString "Example.COM." = true).
Proof.
  apply (domain_is_echoed_raw sampleLookup (endpointRequest ["Example.COM."])).
  - reflexivity.
  - vm_compute. discriminate.
Defined.

End EndpointClaims.

(** * The claims about validation and normalisation, on the handler *)

Section ValidationClaims.
Import Go Http HttpFacts.
Local Open Scope Z_scope.

(** C4, as stated, fails on the handler: whatever the lookup is, the
    requests for ["a..b"] and for ["."] are not answered with an error of
    the 400 class. *)
Lemma empty_labels_are_not_rejected :
  ~ (exists lookup, isClientError (serve lookup (endpointRequest ["a..b"])) = true) /\
  ~ (exists lookup, isClientError (serve lookup (endpointRequest ["."])) = true).
Proof.
  split; intros [lookup H];
    rewrite serve_nonempty in H;
    first [ discriminate H | reflexivity | (vm_compute; discriminate) ].
Qed.

(** C4, amended.  The endpoint answers with an error of the 400 class
    exactly when the [domain] parameter is the empty string, and then
    without calling the lookup; every other string, also one with an empty
    label, is handed to the lookup once and answered with status 200 and the
    JSON form of [publicSuffixHttpResponse].  There is no other failure. *)
Theorem only_the_empty_parameter_is_rejected
        (lookup : string -> string * bool) (req : Request) :
  Path req = "/publicsuffix" ->
  let d := Get (Query req) "domain" in
  let w := serve lookup req in
  (isClientError w = true <-> d = "") /\
  (d = "" -> lookups w = []) /\
  (d <> "" ->
   status (writer w) = Some StatusOK /\
   body (writer w) = [JsonLine (responseJson (responseOf lookup d))] /\
   lookups w = [d]).
Proof.
  intros HP d w. subst w.
  destruct (String.eqb_spec d "") as [E|E].
  - unfold d in E. rewrite (serve_empty lookup req HP E).
    repeat split; intros; try reflexivity; try assumption; contradiction.
  - unfold d in E. rewrite (serve_nonempty lookup req HP E). fold d.
    split; [|split].
    + split; [discriminate | intros H; contradiction].
    + intros H; contradiction.
    + intros _. rewrite responseOf_eq. repeat split; reflexivity.
Qed.

Lemma only_the_empty_parameter_is_rejected_witness :
  let req := endpointRequest ["a..b"] in
  let w := serve sampleLookup req in
  Get (Query req) "domain" <> "" /\
  status (writer w) = Some StatusOK /\
  body (writer w) = [JsonLine (responseJson (responseOf sampleLookup "a..b"))] /\
  lookups w = ["a..b"].
Proof.
  assert (Hd : Get (Query (endpointRequest ["a..b"])) "domain" <> "")
    by (vm_compute; discriminate).
  split; [exact Hd|].
  exact (proj2 (proj2 (only_the_empty_parameter_is_rejected
                         sampleLookup (endpointRequest ["a..b"]) eq_refl)) Hd).
Defined.

(** C5, as stated, fails on the handler: whatever the lookup is, the results
    for ["Example.COM."] and for ["example.com"] differ. *)
Lemma normalised_inputs_give_different_results :
  ~ (exists lookup, responseOf lookup "Example.COM." = responseOf lookup "example.com").
Proof.
  intros [lookup H]. rewrite !responseOf_eq in H. discriminate H.
Qed.

(** C5, amended.  [publicSuffixHttpResponse] does not normalise: the lookup
    is called once, on the caller's string as it is, and the same string is
    the [Domain] of the result.  The other two fields are those of the
    lookup's answer, so they agree on two inputs the lookup answers alike;
    the results as a whole agree on no two different inputs. *)
Theorem classification_takes_the_raw_string
        (lookup : string -> string * bool) (d : string) :
  lookups (snd (publicSuffixHttpResponse lookup d emptyWorld)) = [d] /\
  Domain (responseOf lookup d) = d /\
  PublicSuffix (responseOf lookup d) = fst (lookup d) /\
  (forall d', lookup d' = lookup d ->
     PublicSuffix (responseOf lookup d') = PublicSuffix (responseOf lookup d) /\
     IsManagedBy (responseOf lookup d') = IsManagedBy (responseOf lookup d)) /\
  (forall d', responseOf lookup d' = responseOf lookup d -> d' = d).
Proof.
  repeat split.
  - unfold publicSuffixHttpResponse, bind, callPublicSuffix. simpl.
    destruct (lookup d); reflexivity.
  - rewrite responseOf_eq; reflexivity.
  - rewrite responseOf_eq; reflexivity.
  - rewrite !responseOf_eq; simpl. rewrite H; reflexivity.
  - rewrite !responseOf_eq; simpl. rewrite H; reflexivity.
  - intros d' H. rewrite !responseOf_eq in H. inversion H. reflexivity.
Qed.

Lemma classification_takes_the_raw_string_witness :
  let lookup := fun _ : string => ("com", true) in
  lookup "Example.COM." = lookup "example.com" /\
  PublicSuffix (responseOf lookup "Example.COM.") = PublicSuffix (responseOf lookup "example.com") /\
  IsManagedBy (responseOf lookup "Example.COM.") = IsManagedBy (responseOf lookup "example.com").
Proof.
  split; [reflexivity|].
  exact (proj1 (proj2 (proj2 (proj2
           (classification_takes_the_raw_string (fun _ => ("com", true)) "example.com"))))
         "Example.COM." eq_refl).
Defined.

End ValidationClaims.

(** * The claims about the classification core *)

Section ClassifierClaims.
Import Classifier ClassifierFacts SuffixFacts.

(** C1.  Longest match.  On a valid domain with an applicable rule,
    [classify] reports a rule that matches the domain and that no applicable
    rule exceeds in the number of labels matched.  In particular, in every
    table in which ["co.uk"] is filed and in which ["uk"] and ["co.uk"] are
    the only rules that match ["example.co.uk"], that domain gets the suffix
    ["co.uk"], not ["uk"]. *)
Theorem longest_match_wins :
  (forall (t : gmap string (list Rule)) (d : string) (ls : list string),
     preprocess d = inr ls -> applicable t ls <> [] ->
     exists r,
       In r (applicable t ls) /\ matches r ls = true /\
       (forall r', In r' (applicable t ls) -> matchLength r' <= matchLength r) /\
       classify t d =
       inr {| domain := d;
              matchedSuffix := joinDots (matchedLabels r ls);
              origin := Some (ruleOrigin r) |}) /\
  (forall t : gmap string (list Rule),
     In rule_co_uk (rulesForTopLabel t "uk") ->
     (forall r, In r (rulesForTopLabel t "uk") ->
                matches r ["example"; "co"; "uk"] = true ->
                r = rule_uk \/ r = rule_co_uk) ->
     classify t "example.co.uk" =
     inr {| domain := "example.co.uk"; matchedSuffix := "co.uk"; origin := Some ICANN |}).
Proof.
  split.
  - intros t d ls H Hne.
    destruct (longest (applicable t ls)) as [r|] eqn:E.
    + destruct (longest_is_max _ _ E) as [Hin Hmax].
      exists r. split; [exact Hin|]. split.
      * apply in_applicable, in_matching in Hin. tauto.
      * split; [exact Hmax|].
        rewrite (classify_labels t d ls H). unfold classifyLabels.
        rewrite E. reflexivity.
    + apply longest_nil_iff in E. contradiction.
  - intros t Hin Honly.
    assert (Hm : forall r, In r (matching t ["example"; "co"; "uk"]) ->
                           r = rule_uk \/ r = rule_co_uk).
    { intros r Hr. apply in_matching in Hr. destruct Hr as [Hr Hmr].
      apply Honly; assumption. }
    assert (Ha : applicable t ["example"; "co"; "uk"] = matching t ["example"; "co"; "uk"]).
    { apply applicable_no_exception. intros r Hr.
      destruct (Hm r Hr) as [->| ->]; reflexivity. }
    apply (classify_unique_longest t "example.co.uk" ["example"; "co"; "uk"] rule_co_uk).
    + reflexivity.
    + rewrite Ha. apply in_matching. split; [exact Hin | reflexivity].
    + intros r' Hr'. rewrite Ha in Hr'.
      destruct (Hm r' Hr') as [->| ->]; [right; cbv; lia | left; reflexivity].
Qed.

Lemma longest_match_wins_witness :
  let t := tableOf [rule_uk; rule_co_uk] in
  let ls := ["example"; "co"; "uk"] in
  (preprocess "example.co.uk" = inr ls /\
   applicable t ls = [rule_uk; rule_co_uk] /\
   exists r,
     In r (applicable t ls) /\ matches r ls = true /\
     (forall r', In r' (applicable t ls) -> matchLength r' <= matchLength r) /\
     classify t "example.co.uk" =
     inr {| domain := "example.co.uk";
            matchedSuffix := joinDots (matchedLabels r ls);
            origin := Some (ruleOrigin r) |}) /\
  classify t "example.co.uk" =
  inr {| domain := "example.co.uk"; matchedSuffix := "co.uk"; origin := Some ICANN |}.
Proof.
  split; [split; [reflexivity | split; [reflexivity|]]|].
  - apply (proj1 longest_match_wins (tableOf [rule_uk; rule_co_uk]) "example.co.uk").
    + reflexivity.
    + discriminate.
  - apply (proj2 longest_match_wins (tableOf [rule_uk; rule_co_uk])).
    + right; left; reflexivity.
    + intros r [<-|[<-|[]]] _; [left | right]; reflexivity.
Defined.

(** C2.  Wildcard and exception.  In every table in which ["!www.ck"] is
    filed and in which ["*.ck"] and ["!www.ck"] are the only rules matching
    ["www.ck"], that domain gets the suffix ["ck"] with origin ICANN.  In
    every table in which ["*.ck"] is filed and is the only rule matching
    ["foo.ck"], that domain gets the suffix ["foo.ck"] with origin ICANN.  No
    wildcard rule matches the label sequence of its own pattern, and the
    suffix a matching wildcard reports has exactly one label more than its
    pattern. *)
Theorem wildcard_and_exception :
  (forall t : gmap string (list Rule),
     In rule_except_www_ck (rulesForTopLabel t "ck") ->
     (forall r, In r (rulesForTopLabel t "ck") -> matches r ["www"; "ck"] = true ->
                r = rule_wild_ck \/ r = rule_except_www_ck) ->
     classify t "www.ck" =
     inr {| domain := "www.ck"; matchedSuffix := "ck"; origin := Some ICANN |}) /\
  (forall t : gmap string (list Rule),
     In rule_wild_ck (rulesForTopLabel t "ck") ->
     (forall r, In r (rulesForTopLabel t "ck") -> matches r ["foo"; "ck"] = true ->
                r = rule_wild_ck) ->
     classify t "foo.ck" =
     inr {| domain := "foo.ck"; matchedSuffix := "foo.ck"; origin := Some ICANN |}) /\
  (forall r : Rule, kind r = Wildcard -> matches r (labels r) = false) /\
  (forall (r : Rule) (ls : list string),
     kind r = Wildcard -> matches r ls = true ->
     length (matchedLabels r ls) = S (length (labels r))).
Proof.
  split; [|split; [|split]].
  - intros t Hin Honly.
    assert (Hx : In rule_except_www_ck (matching t ["www"; "ck"]))
      by (apply in_matching; split; [exact Hin | reflexivity]).
    apply (classify_unique_longest t "www.ck" ["www"; "ck"] rule_except_www_ck).
    + reflexivity.
    + apply (applicable_exception t _ rule_except_www_ck); [exact Hx | reflexivity |].
      split; [exact Hx | reflexivity].
    + intros r' Hr'.
      apply (applicable_exception t _ rule_except_www_ck) in Hr'; [|exact Hx | reflexivity].
      destruct Hr' as [Hr' Hw]. apply in_matching in Hr'. destruct Hr' as [Hr' Hmr].
      destruct (Honly r' Hr' Hmr) as [->| ->]; [discriminate Hw | left; reflexivity].
  - intros t Hin Honly.
    assert (Hm : forall r, In r (matching t ["foo"; "ck"]) -> r = rule_wild_ck).
    { intros r Hr. apply in_matching in Hr. destruct Hr as [Hr Hmr].
      apply Honly; assumption. }
    assert (Ha : applicable t ["foo"; "ck"] = matching t ["foo"; "ck"]).
    { apply applicable_no_exception. intros r Hr. rewrite (Hm r Hr). reflexivity. }
    apply (classify_unique_longest t "foo.ck" ["foo"; "ck"] rule_wild_ck).
    + reflexivity.
    + rewrite Ha. apply in_matching. split; [exact Hin | reflexivity].
    + intros r' Hr'. rewrite Ha in Hr'. left. apply Hm; assumption.
  - intros r Hk. unfold matches. rewrite Hk, Nat.ltb_irrefl.
    apply andb_false_r.
  - intros r ls Hk Hm. unfold matches, matchedLabels, lastLabels in *.
    rewrite Hk in *. apply andb_true_iff in Hm. destruct Hm as [_ Hl].
    apply Nat.ltb_lt in Hl. rewrite length_skipn. lia.
Qed.

Lemma wildcard_and_exception_witness :
  classify (tableOf [rule_wild_ck; rule_except_www_ck]) "www.ck" =
  inr {| domain := "www.ck"; matchedSuffix := "ck"; origin := Some ICANN |} /\
  classify (tableOf [rule_wild_ck; rule_except_www_ck]) "foo.ck" =
  inr {| domain := "foo.ck"; matchedSuffix := "foo.ck"; origin := Some ICANN |} /\
  matches rule_wild_ck ["ck"] = false /\
  length (matchedLabels rule_wild_ck ["a"; "foo"; "ck"]) = 2%nat.
Proof.
  split; [|split; [|split]].
  - apply (proj1 wildcard_and_exception (tableOf [rule_wild_ck; rule_except_www_ck])).
    + right; left; reflexivity.
    + intros r [<-|[<-|[]]] _; [left | right]; reflexivity.
  - apply (proj1 (proj2 wildcard_and_exception) (tableOf [rule_wild_ck; rule_except_www_ck])).
    + left; reflexivity.
    + intros r [<-|[<-|[]]] H; [reflexivity | discriminate H].
  - apply (proj1 (proj2 (proj2 wildcard_and_exception)) rule_wild_ck). reflexivity.
  - apply (proj2 (proj2 (proj2 wildcard_and_exception)) rule_wild_ck ["a"; "foo"; "ck"]);
      reflexivity.
Defined.

(** C3.  The implicit default rule.  For every valid domain whose
    top-level label has no rules in the table, [classify] returns origin
    [None] and the top-level label alone as the matched suffix. *)
Theorem unknown_top_label_gets_default
        (t : gmap string (list Rule)) (d : string) (ls : list string) :
  preprocess d = inr ls ->
  rulesForTopLabel t (topLevelLabel d) = [] ->
  classify t d =
  inr {| domain := d; matchedSuffix := topLevelLabel d; origin := None |}.
Proof.
  intros H Hu. unfold topLevelLabel in *.
  rewrite <- (preprocess_labels d ls H) in *.
  apply classify_default; [exact H|].
  unfold matching. rewrite Hu. reflexivity.
Qed.

Lemma unknown_top_label_gets_default_witness :
  preprocess "www.Example.ZZ." = inr ["www"; "example"; "zz"] /\
  rulesForTopLabel (tableOf [rule_uk; rule_co_uk; rule_wild_ck]) "zz" = [] /\
  classify (tableOf [rule_uk; rule_co_uk; rule_wild_ck]) "www.Example.ZZ." =
  inr {| domain := "www.Example.ZZ."; matchedSuffix := "zz"; origin := None |}.
Proof.
  split; [reflexivity|]. split; [reflexivity|].
  apply (unknown_top_label_gets_default
           (tableOf [rule_uk; rule_co_uk; rule_wild_ck])
           "www.Example.ZZ." ["www"; "example"; "zz"]); reflexivity.
Defined.

(** C6, as stated, fails on the classifier of section 4.2: in the empty
    table no rule matches ["example"], and the matched suffix is
    ["example"], not the empty string; and a domain that is itself a listed
    suffix is matched by its rule and gets that suffix and origin. *)
Lemma no_match_suffix_is_not_empty :
  matching ∅ ["example"] = [] /\
  classify ∅ "example" =
  inr {| domain := "example"; matchedSuffix := "example"; origin := None |} /\
  classify (tableOf [mkRule ["com"] Plain ICANN]) "com" =
  inr {| domain := "com"; matchedSuffix := "com"; origin := Some ICANN |}.
Proof. repeat split; vm_compute; reflexivity. Qed.

(** C6, amended.  For every valid domain on which no rule filed under its
    top-level label matches, the matched suffix is the top-level label,
    which is not empty, and the origin is [None].  A domain whose labels are
    those of a plain rule of the table is not such a case: that rule matches
    it, and the result carries the suffix and the origin of a matching rule;
    the suffix is then the whole domain unless the rule reported is an
    exception. *)
Theorem no_match_gets_top_label :
  (forall (t : gmap string (list Rule)) (d : string) (ls : list string),
     preprocess d = inr ls ->
     matching t ls = [] ->
     classify t d = inr {| domain := d; matchedSuffix := topLabel ls; origin := None |} /\
     topLabel ls <> "") /\
  (forall (t : gmap string (list Rule)) (d : string) (r : Rule),
     kind r = Plain ->
     In r (rulesForTopLabel t (topLabel (labels r))) ->
     preprocess d = inr (labels r) ->
     matches r (labels r) = true /\
     matching t (labels r) <> [] /\
     exists r',
       In r' (applicable t (labels r)) /\
       matches r' (labels r) = true /\
       classify t d =
       inr {| domain := d;
              matchedSuffix := joinDots (matchedLabels r' (labels r));
              origin := Some (ruleOrigin r') |} /\
       (isException r' = false -> matchedLabels r' (labels r) = labels r)).
Proof.
  split.
  - intros t d ls H Hm. split.
    + apply classify_default; assumption.
    + apply (preprocess_topLabel_nonempty d ls H).
  - intros t d r Hk Hin Hd.
    assert (Hr : In r (matching t (labels r))).
    { apply in_matching. split; [exact Hin | apply plain_matches_itself; exact Hk]. }
    split; [apply plain_matches_itself; exact Hk|].
    split; [intros E; rewrite E in Hr; destruct Hr|].
    pose proof (plain_applicable t (labels r) r Hk Hr) as Ha.
    destruct (longest (applicable t (labels r))) as [r'|] eqn:E.
    + destruct (longest_is_max _ _ E) as [Hin' Hmax].
      assert (Hm' : matches r' (labels r) = true).
      { apply in_applicable, in_matching in Hin'. tauto. }
      exists r'. split; [exact Hin'|]. split; [exact Hm'|]. split.
      * rewrite (classify_labels t d (labels r) Hd). unfold classifyLabels.
        rewrite E. reflexivity.
      * intros Hx. apply covering_rule_reports_all; [exact Hm' | | exact Hx].
        specialize (Hmax r Ha). unfold matchLength in Hmax at 1.
        rewrite Hk in Hmax. exact Hmax.
    + apply longest_nil_iff in E. rewrite E in Ha. destruct Ha.
Qed.

Lemma no_match_gets_top_label_witness :
  (preprocess "ck" = inr ["ck"] /\
   matching (tableOf [rule_wild_ck; rule_except_www_ck]) ["ck"] = [] /\
   classify (tableOf [rule_wild_ck; rule_except_www_ck]) "ck" =
   inr {| domain := "ck"; matchedSuffix := "ck"; origin := None |} /\
   "ck" <> "") /\
  (kind rule_co_uk = Plain /\
   preprocess "CO.UK." = inr (labels rule_co_uk) /\
   matches rule_co_uk (labels rule_co_uk) = true /\
   matching (tableOf [rule_uk; rule_co_uk]) (labels rule_co_uk) <> [] /\
   exists r',
     In r' (applicable (tableOf [rule_uk; rule_co_uk]) (labels rule_co_uk)) /\
     matches r' (labels rule_co_uk) = true /\
     classify (tableOf [rule_uk; rule_co_uk]) "CO.UK." =
     inr {| domain := "CO.UK.";
            matchedSuffix := joinDots (matchedLabels r' (labels rule_co_uk));
            origin := Some (ruleOrigin r') |} /\
     (isException r' = false -> matchedLabels r' (labels rule_co_uk) = labels rule_co_uk)).
Proof.
  split.
  - split; [reflexivity|]. split; [reflexivity|].
    apply (proj1 no_match_gets_top_label
             (tableOf [rule_wild_ck; rule_except_www_ck]) "ck" ["ck"]); reflexivity.
  - split; [reflexivity|]. split; [reflexivity|].
    apply (proj2 no_match_gets_top_label (tableOf [rule_uk; rule_co_uk]) "CO.UK." rule_co_uk).
    + reflexivity.
    + right; left; reflexivity.
    + reflexivity.
Defined.

End ClassifierClaims.

(** * Further properties of the handler *)

Section HandlerCoverage.
Import Go Http HttpFacts.
Local Open Scope Z_scope.

(** The handler on a request for another path (main.go:53-56). *)
Lemma serve_other_path (lookup : string -> string * bool) (req : Request) :
  Path req <> "/publicsuffix" ->
  serve lookup req =
  mkWorld (mkResponseWriter [] (Some StatusNotFound) [TextLine "404 page not found"]) [].
Proof.
  intros HP. apply String.eqb_neq in HP.
  unfold serve, publicSuffixHttpHandler. rewrite HP. reflexivity.
Qed.

(** X1.  The status of every answer of [publicSuffixHttpHandler]: it is 200
    exactly for the endpoint's path with a non-empty [domain], 400 exactly
    for the endpoint's path with an empty or missing [domain], and 404
    exactly for any other path; and the body is written exactly once. *)
Theorem status_decision_table (lookup : string -> string * bool) (req : Request) :
  let w := serve lookup req in
  (status (writer w) = Some StatusOK <->
     Path req = "/publicsuffix" /\ Get (Query req) "domain" <> "") /\
  (status (writer w) = Some StatusBadRequest <->
     Path req = "/publicsuffix" /\ Get (Query req) "domain" = "") /\
  (status (writer w) = Some StatusNotFound <-> Path req <> "/publicsuffix") /\
  length (body (writer w)) = 1%nat.
Proof.
  intros w. subst w.
  destruct (String.eqb_spec (Path req) "/publicsuffix") as [HP|HP].
  - destruct (String.eqb_spec (Get (Query req) "domain") "") as [HG|HG].
    + rewrite (serve_empty lookup req HP HG). simpl.
      repeat split; intros; try discriminate; try tauto; try assumption.
      all: destruct H; tauto.
    + rewrite (serve_nonempty lookup req HP HG). simpl.
      repeat split; intros; try discriminate; try tauto; try assumption.
      all: destruct H; tauto.
  - rewrite (serve_other_path lookup req HP). simpl.
    repeat split; intros; try discriminate; try tauto; try assumption.
    all: destruct H; tauto.
Qed.

(** X2.  [publicsuffix.PublicSuffix] is called at most once per request: once,
    on the [domain] value as read from the query, exactly when the answer is
    200, and not at all for the 400 and 404 answers. *)
Theorem lookup_called_only_for_answers (lookup : string -> string * bool) (req : Request) :
  let w := serve lookup req in
  (lookups w = [Get (Query req) "domain"] <-> status (writer w) = Some StatusOK) /\
  (lookups w = [] <-> status (writer w) <> Some StatusOK) /\
  (length (lookups w) <= 1)%nat.
Proof.
  intros w. subst w.
  destruct (String.eqb_spec (Path req) "/publicsuffix") as [HP|HP].
  - destruct (String.eqb_spec (Get (Query req) "domain") "") as [HG|HG].
    + rewrite (serve_empty lookup req HP HG). simpl.
      repeat split; intros; try discriminate; auto.
    + rewrite (serve_nonempty lookup req HP HG), responseOf_eq. simpl.
      repeat split; intros; try discriminate; auto. contradiction.
  - rewrite (serve_other_path lookup req HP). simpl.
    repeat split; intros; try discriminate; auto.
Qed.

(** X3.  Every answer for the endpoint's path, the 400 error as well as the
    200 answer, carries the header
    [Content-Type: application/json; charset=utf-8], added once, whatever the
    query and the lookup are. *)
Theorem content_type_of_every_answer (lookup : string -> string * bool) (req : Request) :
  Path req = "/publicsuffix" ->
  header (writer (serve lookup req)) =
  [("Content-Type", "application/json; charset=utf-8")] /\
  (status (writer (serve lookup req)) = Some StatusOK \/
   status (writer (serve lookup req)) = Some StatusBadRequest).
Proof.
  intros HP.
  destruct (String.eqb_spec (Get (Query req) "domain") "") as [HG|HG].
  - rewrite (serve_empty lookup req HP HG). split; [reflexivity | right; reflexivity].
  - rewrite (serve_nonempty lookup req HP HG). split; [reflexivity | left; reflexivity].
Qed.

Lemma content_type_of_every_answer_witness :
  header (writer (serve sampleLookup bareRequest)) =
  [("Content-Type", "application/json; charset=utf-8")] /\
  (status (writer (serve sampleLookup bareRequest)) = Some StatusOK \/
   status (writer (serve sampleLookup bareRequest)) = Some StatusBadRequest).
Proof.
  apply (content_type_of_every_answer sampleLookup bareRequest). reflexivity.
Defined.

(** X4.  The answer is a function of the path, of the first value of the
    [domain] parameter and of what the lookup returns for that value: further
    values of [domain], other query parameters and the lookup's results on
    other strings do not change it. *)
Theorem answer_depends_on_first_domain_value
        (lookup lookup' : string -> string * bool) (req req' : Request) :
  Path req = Path req' ->
  Get (Query req) "domain" = Get (Query req') "domain" ->
  lookup (Get (Query req) "domain") = lookup' (Get (Query req) "domain") ->
  serve lookup req = serve lookup' req'.
Proof.
  intros HP HG HL.
  destruct (String.eqb_spec (Path req) "/publicsuffix") as [E|E].
  - assert (E' : Path req' = "/publicsuffix") by congruence.
    destruct (String.eqb_spec (Get (Query req) "domain") "") as [G|G].
    + rewrite (serve_empty lookup req E G).
      rewrite (serve_empty lookup' req' E'); [reflexivity | congruence].
    + rewrite (serve_nonempty lookup req E G).
      rewrite (serve_nonempty lookup' req' E'); [|congruence].
      rewrite <- HG, !responseOf_eq, HL. reflexivity.
  - rewrite (serve_other_path lookup req E).
    rewrite (serve_other_path lookup' req'); [reflexivity | congruence].
Qed.

Lemma answer_depends_on_first_domain_value_witness :
  serve sampleLookup (endpointRequest ["example.com"; "other.org"]) =
  serve (fun _ => ("com", true))
        (mkRequest "/publicsuffix" (<[ "format" := ["xml"] ]> {[ "domain" := ["example.com"] ]})).
Proof.
  apply (answer_depends_on_first_domain_value sampleLookup (fun _ => ("com", true))
           (endpointRequest ["example.com"; "other.org"])
           (mkRequest "/publicsuffix" (<[ "format" := ["xml"] ]> {[ "domain" := ["example.com"] ]})));
    reflexivity.
Defined.

(** X5.  On the endpoint's path the body agrees with the status line: the
    JSON object has an [errorCode] member exactly when the status is 400 and
    a [domain] member exactly when it is 200; and an [errorCode] in the body
    is the status of the response, with [errorType] its status text. *)
Theorem body_matches_status (lookup : string -> string * bool) (req : Request) :
  Path req = "/publicsuffix" ->
  exists j : Json,
    body (writer (serve lookup req)) = [JsonLine j] /\
    (is_Some (member j "errorCode") <-> status (writer (serve lookup req)) = Some StatusBadRequest) /\
    (is_Some (member j "domain") <-> status (writer (serve lookup req)) = Some StatusOK) /\
    (forall n, member j "errorCode" = Some (JNumber n) ->
       status (writer (serve lookup req)) = Some n /\
       member j "errorType" = Some (JString (StatusText n))).
Proof.
  intros HP.
  destruct (String.eqb_spec (Get (Query req) "domain") "") as [HG|HG].
  - rewrite (serve_empty lookup req HP HG). exists errorJson. simpl.
    split; [reflexivity|]. split; [|split].
    + split; [reflexivity | intros _; eexists; reflexivity].
    + split; [intros [x H]; discriminate H | discriminate].
    + intros n H. inversion H. subst n. split; reflexivity.
  - rewrite (serve_nonempty lookup req HP HG).
    exists (responseJson (responseOf lookup (Get (Query req) "domain"))). simpl.
    split; [reflexivity|]. split; [|split].
    + split; [intros [x H]; discriminate H | discriminate].
    + split; [reflexivity | intros _; eexists; reflexivity].
    + intros n H. discriminate H.
Qed.

Lemma body_matches_status_witness :
  exists j : Json,
    body (writer (serve sampleLookup (endpointRequest [""]))) = [JsonLine j] /\
    member j "errorCode" = Some (JNumber 400) /\
    status (writer (serve sampleLookup (endpointRequest [""]))) = Some 400 /\
    member j "errorType" = Some (JString (StatusText 400)).
Proof.
  destruct (body_matches_status sampleLookup (endpointRequest [""]) eq_refl)
    as [j [Hb [_ [_ Hn]]]].
  exists j. split; [exact Hb|].
  assert (Hc : member j "errorCode" = Some (JNumber 400)).
  { vm_compute in Hb. inversion Hb. reflexivity. }
  split; [exact Hc|]. exact (Hn 400 Hc).
Defined.

End HandlerCoverage.

(** * Properties of [getEnv] and of the set-up in [main] *)

Section MainCoverage.
Import Go Http HttpFacts Main.

(** X6.  [getEnv] returns the variable's value whenever the variable is set,
    also when it is set to the empty string, and the fallback only when it is
    unset; so the result is the fallback exactly when the variable is unset
    or holds the fallback itself.  Other variables do not matter. *)
Theorem getEnv_prefers_the_variable (env : gmap string string) (key fallback : string) :
  (forall value, env !! key = Some value -> getEnv env key fallback = value) /\
  (env !! key = None -> getEnv env key fallback = fallback) /\
  (getEnv env key fallback = fallback <->
     env !! key = None \/ env !! key = Some fallback) /\
  (forall other value, other <> key ->
     getEnv (<[ other := value ]> env) key fallback = getEnv env key fallback).
Proof.
  unfold getEnv, LookupEnv. repeat split.
  - intros value H. rewrite H. reflexivity.
  - intros H. rewrite H. reflexivity.
  - destruct (env !! key) as [v|]; [intros ->; auto | auto].
  - destruct (env !! key) as [v|]; intros [H|H]; congruence.
  - intros other value H. rewrite lookup_insert_ne by exact H. reflexivity.
Qed.

Lemma getEnv_prefers_the_variable_witness :
  getEnv {[ "PORT" := "" ]} "PORT" "80" = "" /\
  getEnv {[ "HOME" := "/root" ]} "PORT" "80" = "80" /\
  getEnv (<[ "HOME" := "/root" ]> {[ "PORT" := "8080" ]}) "PORT" "80" =
  getEnv {[ "PORT" := "8080" ]} "PORT" "80".
Proof.
  split; [|split].
  - apply (proj1 (getEnv_prefers_the_variable {[ "PORT" := "" ]} "PORT" "80")).
    reflexivity.
  - apply (proj1 (proj2 (getEnv_prefers_the_variable {[ "HOME" := "/root" ]} "PORT" "80"))).
    reflexivity.
  - apply (proj2 (proj2 (proj2 (getEnv_prefers_the_variable {[ "PORT" := "8080" ]} "PORT" "80")))).
    discriminate.
Defined.

Lemma port_cases (env : gmap string string) :
  port env = match env !! "PORT" with Some p => p | None => "80" end.
Proof. unfold port, getEnv, LookupEnv. destruct (env !! "PORT"); reflexivity. Qed.

(** X7.  The address [main] listens on is [":80"] exactly when [PORT] is
    unset or set to ["80"], and it is the bare [":"] exactly when [PORT] is
    set to the empty string: an empty [PORT] does not fall back to 80.  When
    [PORT] is set, the address and the logged line both carry its value. *)
Theorem listen_address_follows_port (env : gmap string string) :
  (listenAddress env = ":80" <-> env !! "PORT" = None \/ env !! "PORT" = Some "80") /\
  (listenAddress env = ":" <-> env !! "PORT" = Some "") /\
  (forall p, env !! "PORT" = Some p ->
     listenAddress env = ":" ++ p /\
     logLine env = "listening on http://localhost:" ++ p).
Proof.
  unfold listenAddress, logLine. rewrite port_cases.
  destruct (env !! "PORT") as [p|].
  - split; [|split].
    + change (":" ++ p) with (String ":" p). split.
      * intros H. inversion H. right. reflexivity.
      * intros [H|H]; [discriminate | inversion H; reflexivity].
    + change (":" ++ p) with (String ":" p).
      split; intros H; inversion H; reflexivity.
    + intros q H. inversion H. split; reflexivity.
  - split; [|split].
    + split; [left; reflexivity | reflexivity].
    + split; discriminate.
    + intros q H. discriminate H.
Qed.

Lemma listen_address_follows_port_witness :
  listenAddress {[ "PORT" := "8080" ]} = ":8080" /\
  logLine {[ "PORT" := "8080" ]} = "listening on http://localhost:8080".
Proof.
  apply (proj2 (proj2 (listen_address_follows_port {[ "PORT" := "8080" ]})) "8080").
  reflexivity.
Defined.

(** The mux [main] builds. *)
Lemma registerRoutes_eq :
  registerRoutes =
  Some (mkServeMux
          (<[ "/" := IndexHandler ]>
            (<[ "/github" := RedirectHandler githubUrl ]>
              (<[ "/publicsuffix" := PublicSuffixHandler ]>
                (<[ "/favicon.ico" := FaviconHandler ]>
                  (<[ "/static/" := StaticFileServer ]> ∅)))))
          [("/static/", StaticFileServer); ("/", IndexHandler)]
          false).
Proof. vm_compute. reflexivity. Qed.

Lemma selected_registered (mux : ServeMux) (path : string) :
  registerRoutes = Some mux ->
  selected mux path =
  if decide (path = "/") then Some IndexHandler
  else if decide (path = "/github") then Some (RedirectHandler githubUrl)
  else if decide (path = "/publicsuffix") then Some PublicSuffixHandler
  else if decide (path = "/favicon.ico") then Some FaviconHandler
  else if String.prefix "/static/" path then Some StaticFileServer
  else if String.prefix "/" path then Some IndexHandler
  else None.
Proof.
  rewrite registerRoutes_eq. intros H. inversion H. subst mux. clear H.
  unfold selected, match_. cbn [m es].
  rewrite !lookup_insert, lookup_empty.
  repeat case_decide; subst; try congruence; try reflexivity.
  cbn [firstPrefix].
  destruct (String.prefix "/static/" path); [reflexivity|].
  destruct (String.prefix "/" path); reflexivity.
Qed.

Lemma prefix_static_slash (path : string) :
  String.prefix "/static/" path = true -> String.prefix "/" path = true.
Proof.
  destruct path as [|c rest]; [discriminate|].
  change (String.prefix "/static/" (String c rest))
    with (if ascii_dec "/" c then String.prefix "static/" rest else false).
  change (String.prefix "/" (String c rest))
    with (if ascii_dec "/" c then String.prefix "" rest else false).
  destruct (ascii_dec "/" c); [|discriminate].
  intros _. destruct rest; reflexivity.
Qed.

Lemma selected_endpoint (mux : ServeMux) (path : string) :
  registerRoutes = Some mux ->
  selected mux path = Some PublicSuffixHandler -> path = "/publicsuffix".
Proof.
  intros E. rewrite (selected_registered mux path E).
  repeat case_decide; subst; try discriminate; try reflexivity.
  destruct (String.prefix "/static/" path); [discriminate|].
  destruct (String.prefix "/" path); discriminate.
Qed.

(** X8.  The five registrations of [main] are accepted (no pattern is empty
    or registered twice), and [ServeMux.match] on them selects: the endpoint's
    handler exactly for ["/publicsuffix"], the favicon handler exactly for
    ["/favicon.ico"], the redirect to the repository exactly for ["/github"],
    the file server exactly for the paths that begin with ["/static/"], the
    index handler for every other path that begins with a slash, and no
    handler for a path that does not begin with one. *)
Theorem routing_table :
  exists mux, registerRoutes = Some mux /\
  forall path : string,
    (selected mux path = Some PublicSuffixHandler <-> path = "/publicsuffix") /\
    (selected mux path = Some FaviconHandler <-> path = "/favicon.ico") /\
    (selected mux path = Some (RedirectHandler githubUrl) <-> path = "/github") /\
    (selected mux path = Some StaticFileServer <-> String.prefix "/static/" path = true) /\
    (selected mux path = Some IndexHandler <->
       String.prefix "/" path = true /\ String.prefix "/static/" path = false /\
       path <> "/publicsuffix" /\ path <> "/favicon.ico" /\ path <> "/github") /\
    (selected mux path = None <-> String.prefix "/" path = false).
Proof.
  destruct registerRoutes as [mux|] eqn:E; [|rewrite registerRoutes_eq in E; discriminate].
  exists mux. split; [reflexivity|]. intros path.
  rewrite (selected_registered mux path E).
  repeat case_decide; subst.
  1-4: repeat split; intros; try discriminate; try congruence; try reflexivity;
       repeat match goal with H : _ /\ _ |- _ => destruct H end; try congruence.
  destruct (String.prefix "/static/" path) eqn:Es;
    [|destruct (String.prefix "/" path) eqn:El];
    repeat split; intros; try discriminate; try congruence; try reflexivity;
    repeat match goal with H : _ /\ _ |- _ => destruct H end; try congruence.
  apply prefix_static_slash in Es. congruence.
Qed.

(** X9.  Under the routing of [main] the 404 branch of
    [publicSuffixHttpHandler] is never taken: for every request whose path
    selects the endpoint's handler, the answer is 200 or 400, a JSON object
    with the JSON content type. *)
Theorem routed_endpoint_never_answers_404
        (mux : ServeMux) (lookup : string -> string * bool) (req : Request) :
  registerRoutes = Some mux ->
  selected mux (Path req) = Some PublicSuffixHandler ->
  let w := serve lookup req in
  (status (writer w) = Some StatusOK \/ status (writer w) = Some StatusBadRequest) /\
  status (writer w) <> Some StatusNotFound /\
  header (writer w) = jsonHeader /\
  exists j, body (writer w) = [JsonLine j].
Proof.
  intros E Hs w. subst w.
  pose proof (selected_endpoint mux (Path req) E Hs) as HP.
  destruct (String.eqb_spec (Get (Query req) "domain") "") as [HG|HG].
  - rewrite (serve_empty lookup req HP HG). simpl.
    split; [right; reflexivity|]. split; [discriminate|].
    split; [reflexivity|]. eexists; reflexivity.
  - rewrite (serve_nonempty lookup req HP HG). simpl.
    split; [left; reflexivity|]. split; [discriminate|].
    split; [reflexivity|]. eexists; reflexivity.
Qed.

Lemma routed_endpoint_never_answers_404_witness :
  let w := serve sampleLookup (endpointRequest ["foo.github.io"]) in
  (status (writer w) = Some StatusOK \/ status (writer w) = Some StatusBadRequest) /\
  status (writer w) <> Some StatusNotFound /\
  header (writer w) = jsonHeader /\
  exists j, body (writer w) = [JsonLine j].
Proof.
  apply (routed_endpoint_never_answers_404 _ sampleLookup
           (endpointRequest ["foo.github.io"]) registerRoutes_eq).
  reflexivity.
Defined.

End MainCoverage.
